(** * The bootstrap routine of the web server ([server/main.py])

    [main] configures the CherryPy engine, wires a [Root] handler with its
    [Portfolio] sub-resource, mounts the tree at ["/"], starts the engine and
    blocks.  Every statement of [main] is a call into a collaborator that is
    not part of the file (the engine, the two handler classes, the settings
    module), so the embedding is a small state-and-exception monad over the
    process state those calls act on, parameterised by an environment that
    says how each collaborator answers. *)

From Stdlib Require Import Ascii.
From stdpp Require Import gmap strings list fin_maps.

Set Warnings "-register-all".

Local Open Scope string_scope.
Local Open Scope list_scope.

(** ** Data *)

(** Python values that occur in configuration mappings. *)
Inductive value : Type :=
| VNone
| VBool (b : bool)
| VInt (z : Z)
| VStr (s : string)
| VDict (d : gmap string value).

(** Exceptions.  [KeyError] and [TypeError] are the two a subscript
    expression raises; [Error] stands for whatever a collaborator raises. *)
Inductive exn : Type :=
| KeyError (key : string)
| TypeError (msg : string)
| Error (cls msg : string).

(** [v[k]] for a string key [k]: the entry of a mapping, [KeyError] when
    the mapping has none, [TypeError] on every other value. *)
Definition subscript (v : value) (k : string) : exn + value :=
  match v with
  | VDict d =>
      match d !! k with
      | Some x => inr x
      | None => inl (KeyError k)
      end
  | VStr _ => inl (TypeError "string indices must be integers, not 'str'")
  | VNone => inl (TypeError "'NoneType' object is not subscriptable")
  | VBool _ => inl (TypeError "'bool' object is not subscriptable")
  | VInt _ => inl (TypeError "'int' object is not subscriptable")
  end.

(** Object identities and the two handler classes imported from
    [.app.root]. *)
Definition loc := positive.

Inductive class : Type := Root | Portfolio.

Record object : Type := Object {
  obj_class : class;
  obj_attrs : gmap string loc
}.

Definition set_attr (name : string) (v : loc) (o : object) : object :=
  Object (obj_class o) (<[name := v]> (obj_attrs o)).

(** What mounting at the root of the site does to a handler that has no
    [favicon_ico] of its own: the engine's static handler [h] is stored
    there. *)
Definition add_favicon (h : loc) (o : object) : object :=
  match obj_attrs o !! "favicon_ico" with
  | Some _ => o
  | None => set_attr "favicon_ico" h o
  end.

(** [s.rstrip('/')]. *)
Fixpoint rstrip_slash (s : string) : string :=
  match s with
  | EmptyString => EmptyString
  | String c s' =>
      match rstrip_slash s' with
      | EmptyString =>
          if Ascii.eqb c "/"%char then EmptyString else String c EmptyString
      | t => String c t
      end
  end.

(** An entry of [cherrypy.tree.apps]: the application the engine wraps
    around a mounted root, with the script name it answers under.  The
    configuration the engine merges into the application is not part of the
    state modelled here. *)
Record application : Type := Application {
  app_root : loc;
  app_script_name : string
}.

(** State of the engine's bus. *)
Inductive engine_state : Type := Stopped | Started | Exiting.

(** The process state [main] acts on: [cherrypy.config], the handler objects
    allocated so far, [cherrypy.tree.apps] and the state of
    [cherrypy.engine]. *)
Record world : Type := World {
  config : gmap string value;
  heap : gmap loc object;
  tree : gmap string application;
  engine : engine_state
}.

Definition with_config (c : gmap string value) (w : world) : world :=
  World c (heap w) (tree w) (engine w).
Definition with_heap (h : gmap loc object) (w : world) : world :=
  World (config w) h (tree w) (engine w).
Definition with_tree (t : gmap string application) (w : world) : world :=
  World (config w) (heap w) t (engine w).
Definition with_engine (s : engine_state) (w : world) : world :=
  World (config w) (heap w) (tree w) s.

(** The calls [main] makes, with their arguments. *)
Inductive call : Type :=
| ConfigUpdate (d : gmap string value)
| Construct (c : class)
| SetAttr (target : loc) (name : string) (v : loc)
| Mount (app : loc) (script_name : string) (cfg : value)
| EngineStart
| EngineBlock.

(** What [cherrypy.engine.block()] does to the calling thread. *)
Inductive block_outcome : Type :=
| BlockReturns
| BlockRaises (e : exn)
| BlockSuspends.

(** The collaborators: the settings module's [SETTINGS], and for every call
    whether it raises ([Some e]) or goes through ([None]).  [init_attrs c] is
    the attribute dictionary the constructor of [c] leaves behind, and
    [favicon_handler] the identity of the static handler the engine installs
    as [favicon_ico]. *)
Record env : Type := Env {
  SETTINGS : value;
  config_update_raises : option exn;
  construct_raises : class -> option exn;
  init_attrs : class -> gmap string loc;
  setattr_raises : option exn;
  mount_raises : option exn;
  start_raises : option exn;
  block_does : block_outcome;
  favicon_handler : loc
}.

(** ** The monad *)

(** How a computation ends: it returns, it raises, or it never comes back. *)
Inductive outcome (A : Type) : Type :=
| Returned (a : A)
| Raised (e : exn)
| Suspended.
Arguments Returned {A} a.
Arguments Raised {A} e.
Arguments Suspended {A}.

(** A run: the calls made, each with the state it was made in, the state
    reached and the outcome. *)
Record run (A : Type) : Type := Run {
  calls : list (call * world);
  final : world;
  result : outcome A
}.
Arguments Run {A} calls final result.
Arguments calls {A} r.
Arguments final {A} r.
Arguments result {A} r.

Definition M (A : Type) : Type := world -> run A.

Definition ret {A} (a : A) : M A := fun w => Run [] w (Returned a).

Definition bind {A B} (m : M A) (k : A -> M B) : M B := fun w =>
  let r := m w in
  match result r with
  | Returned a =>
      let r' := k a (final r) in
      Run (calls r ++ calls r') (final r') (result r')
  | Raised e => Run (calls r) (final r) (Raised e)
  | Suspended => Run (calls r) (final r) Suspended
  end.

Declare Scope py_scope.
Delimit Scope py_scope with py.
Notation "x <- m ;; k" := (bind m (fun x => k))
  (at level 100, m at next level, right associativity) : py_scope.
Notation "m ;; k" := (bind m (fun _ => k))
  (at level 100, right associativity) : py_scope.
Local Open Scope py_scope.

Definition raise {A} (e : exn) : M A := fun w => Run [] w (Raised e).
Definition suspend {A} : M A := fun w => Run [] w Suspended.
Definition invoke (c : call) : M unit := fun w => Run [(c, w)] w (Returned tt).
Definition modify (f : world -> world) : M unit := fun w => Run [] (f w) (Returned tt).
Definition get : M world := fun w => Run [] w (Returned w).

Definition lift {A} (x : exn + A) : M A :=
  match x with
  | inl e => raise e
  | inr a => ret a
  end.

Definition or_raise (o : option exn) (m : M unit) : M unit :=
  match o with
  | Some e => raise e
  | None => m
  end.

(** ** The collaborators' calls and [main] *)

Section Bootstrap.

Variable E : env.

(** [cherrypy.config.update(d)]: the entries of [d] are merged over the
    global configuration, as [dict.update] does. *)
Definition config_update (d : gmap string value) : M unit :=
  invoke (ConfigUpdate d) ;;
  or_raise (config_update_raises E)
    (modify (fun w => with_config (d ∪ config w) w)).

(** [c()]: a new object of class [c], at an identity no live object has. *)
Definition construct (c : class) : M loc :=
  invoke (Construct c) ;;
  or_raise (construct_raises E c) (ret tt) ;;
  w <- get ;;
  let l := fresh (dom (heap w)) in
  modify (with_heap (<[l := Object c (init_attrs E c)]> (heap w))) ;;
  ret l.

(** [target.name = v]. *)
Definition setattr (target : loc) (name : string) (v : loc) : M unit :=
  invoke (SetAttr target name v) ;;
  or_raise (setattr_raises E)
    (modify (fun w => with_heap (alter (set_attr name v) target (heap w)) w)).

(** [cherrypy.tree.mount(app, script_name, cfg)] for a handler [app]: the
    script name loses its trailing slashes, so that ["/"] becomes [""]; a
    root mounted at [""] without a [favicon_ico] is given one; then the
    configuration is merged, which is where the call can raise; and at last
    the application is stored under the stripped name. *)
Definition tree_mount (app : loc) (script_name : string) (cfg : value) : M unit :=
  invoke (Mount app script_name cfg) ;;
  let name := rstrip_slash script_name in
  (if String.eqb name ""
   then modify (fun w =>
          with_heap (alter (add_favicon (favicon_handler E)) app (heap w)) w)
   else ret tt) ;;
  or_raise (mount_raises E)
    (modify (fun w => with_tree (<[name := Application app name]> (tree w)) w)).

(** [cherrypy.engine.start()], as far as it surfaces to the caller: it goes
    through or it raises.  An engine that ends the process inside the call
    gives [main] no outcome at all and has no run here. *)
Definition engine_start : M unit :=
  invoke EngineStart ;;
  or_raise (start_raises E) (modify (with_engine Started)).

(** [cherrypy.engine.block()]: it waits for the bus to reach its exiting
    state, so when it returns the engine is exiting. *)
Definition engine_block : M unit :=
  invoke EngineBlock ;;
  match block_does E with
  | BlockReturns => modify (with_engine Exiting)
  | BlockRaises e => raise e
  | BlockSuspends => suspend
  end.

(** [main()], statement by statement.  In the assignment the right-hand
    side [Portfolio()] is evaluated before the attribute is stored; in the
    mount statement the arguments, and so both subscripts, are evaluated
    before the call. *)
Definition main : M unit :=
  config_update {["server.socket_host" := VStr "0.0.0.0"]} ;;
  app <- construct Root ;;
  portfolio <- construct Portfolio ;;
  setattr app "portfolio" portfolio ;;
  server <- lift (subscript (SETTINGS E) "server") ;;
  app_config <- lift (subscript server "app_config") ;;
  tree_mount app "/" app_config ;;
  engine_start ;;
  engine_block.

End Bootstrap.

(** ** Observations on a run *)

(** The calls of a run in order, without the states. *)
Definition invoked {A} (r : run A) : list call := (calls r).*1.

Definition is_config_update (c : call) : bool :=
  match c with ConfigUpdate _ => true | _ => false end.
Definition is_mount (c : call) : bool :=
  match c with Mount _ _ _ => true | _ => false end.
Definition is_start (c : call) : bool :=
  match c with EngineStart => true | _ => false end.

Definition count_calls {A} (p : call -> bool) (r : run A) : nat :=
  length (List.filter p (invoked r)).

(** A run that did not end in an exception. *)
Definition succeeds {A} (r : run A) : Prop :=
  match result r with
  | Raised _ => False
  | _ => True
  end.

(** The mapping literal [main] passes to [cherrypy.config.update]. *)
Definition host_config : gmap string value :=
  {["server.socket_host" := VStr "0.0.0.0"]}.

(** [SETTINGS["server"]["app_config"]] as an expression on its own. *)
Definition mount_config (settings : value) : exn + value :=
  match subscript settings "server" with
  | inl e => inl e
  | inr server => subscript server "app_config"
  end.

(** [settings] is a mapping that has no entry [k] on the way to the mount
    configuration. *)
Definition lacks_key (settings : value) (k : string) : Prop :=
  (k = "server" /\ exists d, settings = VDict d /\ d !! "server" = None) \/
  (k = "app_config" /\ exists d d',
      settings = VDict d /\ d !! "server" = Some (VDict d') /\
      d' !! "app_config" = None).

(** The steps of [main], in program order. *)
Inductive step : Type :=
| StepConfigUpdate | StepRoot | StepPortfolio | StepAttach
| StepSettings | StepMount | StepStart | StepBlock.

Definition order (s : step) : nat :=
  match s with
  | StepConfigUpdate => 0 | StepRoot => 1 | StepPortfolio => 2
  | StepAttach => 3 | StepSettings => 4 | StepMount => 5
  | StepStart => 6 | StepBlock => 7
  end.

Definition step_of_call (c : call) : step :=
  match c with
  | ConfigUpdate _ => StepConfigUpdate
  | Construct Root => StepRoot
  | Construct Portfolio => StepPortfolio
  | SetAttr _ _ _ => StepAttach
  | Mount _ _ _ => StepMount
  | EngineStart => StepStart
  | EngineBlock => StepBlock
  end.

(** The exception step [s] raises under [E], if it raises. *)
Definition raises (E : env) (s : step) : option exn :=
  match s with
  | StepConfigUpdate => config_update_raises E
  | StepRoot => construct_raises E Root
  | StepPortfolio => construct_raises E Portfolio
  | StepAttach => setattr_raises E
  | StepSettings =>
      match mount_config (SETTINGS E) with inl e => Some e | inr _ => None end
  | StepMount => mount_raises E
  | StepStart => start_raises E
  | StepBlock =>
      match block_does E with BlockRaises e => Some e | _ => None end
  end.

(** Every step before [s] goes through. *)
Definition ok_before (E : env) (s : step) : Prop :=
  forall s', order s' < order s -> raises E s' = None.

(** The steps up to and including [s] that are calls (the settings lookup is
    an expression, not a call). *)
Definition calls_through (s : step) : list step :=
  List.filter (fun s' => (order s' <=? order s)%nat)
    [StepConfigUpdate; StepRoot; StepPortfolio; StepAttach;
     StepMount; StepStart; StepBlock].

(** The handler at [a] has its [portfolio] slot set, to a [Portfolio]. *)
Definition attached (w : world) (a : loc) : Prop :=
  exists o p, heap w !! a = Some o /\ obj_class o = Root /\
    obj_attrs o !! "portfolio" = Some p /\
    obj_class <$> heap w !! p = Some Portfolio.

(** ** Sample inputs *)

(** A process that has done nothing yet, and one whose configuration already
    names a port. *)
Definition w_empty : world := World ∅ ∅ ∅ Stopped.

Definition w_with_port : world :=
  World {["server.socket_port" := VInt 8080]} ∅ ∅ Stopped.

Definition settings_ok : value :=
  VDict {["server" := VDict {["app_config" := VDict ∅]}]}.

Definition settings_no_app_config : value :=
  VDict {["server" := VDict {["port" := VInt 8080]}]}.

(** Every collaborator goes through and the block suspends the thread. *)
Definition E_ok : env :=
  Env settings_ok None (fun _ => None) (fun _ => ∅) None None None BlockSuspends
      100%positive.

(** The settings have a ["server"] section without ["app_config"]. *)
Definition E_no_app_config : env :=
  Env settings_no_app_config None (fun _ => None) (fun _ => ∅)
      None None None BlockSuspends 100%positive.

(** The engine cannot bind its socket. *)
Definition E_port_in_use : env :=
  Env settings_ok None (fun _ => None) (fun _ => ∅) None None
      (Some (Error "OSError" "Address already in use")) BlockSuspends
      100%positive.

(** [SETTINGS] is a string, not a mapping. *)
Definition E_settings_string : env :=
  Env (VStr "production") None (fun _ => None) (fun _ => ∅)
      None None None BlockSuspends 100%positive.

(** [Root()] raises. *)
Definition E_root_fails : env :=
  Env settings_ok None
      (fun c => match c with
                | Root => Some (Error "RuntimeError" "no templates")
                | Portfolio => None
                end)
      (fun _ => ∅) None None None BlockSuspends 100%positive.

(** The state [main] has reached under [E_ok] when it calls the mount. *)
Definition w_at_mount : world :=
  final (bind (config_update E_ok host_config) (fun _ =>
         bind (construct E_ok Root) (fun app =>
         bind (construct E_ok Portfolio) (fun portfolio =>
         setattr E_ok app "portfolio" portfolio))) w_empty).

(** [E] with another settings value, every collaborator answering as
    before. *)
Definition with_settings (s : value) (E : env) : env :=
  Env s (config_update_raises E) (construct_raises E) (init_attrs E)
      (setattr_raises E) (mount_raises E) (start_raises E) (block_does E)
      (favicon_handler E).

(** Values a string subscript is defined on. *)
Definition is_mapping (v : value) : bool :=
  match v with VDict _ => true | _ => false end.

(** [settings] or its ["server"] entry is something other than a mapping. *)
Definition not_a_mapping (settings : value) : Prop :=
  is_mapping settings = false \/
  exists d v, settings = VDict d /\ d !! "server" = Some v /\
    is_mapping v = false.

(** Every collaborator goes through and the block returns (the engine has
    been shut down). *)
Definition E_returns : env :=
  Env settings_ok None (fun _ => None) (fun _ => ∅) None None None BlockReturns
      100%positive.

(** The settings carry entries [main] never reads. *)
Definition settings_rich : value :=
  VDict {["server" := VDict {["app_config" := VDict ∅; "port" := VInt 8080]};
          "debug" := VBool true]}.


(** A process that already holds an object and a mounted application. *)
Definition w_busy : world :=
  World {["server.socket_host" := VStr "127.0.0.1"]}
        {[1%positive := Object Portfolio ∅]}
        {["/old" := Application 1%positive "/old"]}
        Stopped.

(** The state in which the [i]-th call of a run was made. *)
Definition state_at {A} (r : run A) (i : nat) : world :=
  match calls r !! i with
  | Some (_, w) => w
  | None => final r
  end.

(** ** Tactics *)

Ltac simpl_run :=
  cbn [result calls final config heap tree engine
       with_config with_heap with_tree with_engine app] in *.

Ltac simpl_calls :=
  unfold count_calls; unfold invoked;
  cbn [fmap list_fmap calls final result fst snd List.filter
       is_config_update is_mount is_start length].

(** Membership in an explicit list of calls. *)
Ltac in_calls H :=
  repeat (apply elem_of_cons in H as [H | H]; [try discriminate H |]);
  try (by apply elem_of_nil in H).

Ltac not_in_calls :=
  let H := fresh "Hin" in
  intros H; in_calls H.

(** The facts [ok_before E s] stands for. *)
Ltac use_ok H :=
  try (pose proof (H StepConfigUpdate ltac:(cbn; lia)));
  try (pose proof (H StepRoot ltac:(cbn; lia)));
  try (pose proof (H StepPortfolio ltac:(cbn; lia)));
  try (pose proof (H StepAttach ltac:(cbn; lia)));
  try (pose proof (H StepSettings ltac:(cbn; lia)));
  try (pose proof (H StepMount ltac:(cbn; lia)));
  try (pose proof (H StepStart ltac:(cbn; lia)));
  clear H; cbn [raises] in *.

Ltac ok_before_by_computation :=
  let s := fresh "s" in
  let H := fresh "Hlt" in
  intros s H; destruct s; cbn in H; try lia; reflexivity.

(** Rewrite the subscripts a goal mentions with what the run found. *)
Ltac use_subscripts :=
  unfold mount_config;
  repeat match goal with
         | H : subscript _ _ = _ |- _ => rewrite H
         end.

(** Close [ok_before E s] from the answers collected along a run. *)
Ltac ok_before_from_run :=
  let s := fresh "s" in
  let H := fresh "Hlt" in
  intros s H; destruct s; cbn in H; try lia; cbn [raises];
  use_subscripts; done.

(** ** Equations of the monad and of the calls *)

Lemma bind_run {A B} (m : M A) (k : A -> M B) (w : world) :
  bind m k w =
  match result (m w) with
  | Returned a =>
      Run (calls (m w) ++ calls (k a (final (m w))))
          (final (k a (final (m w)))) (result (k a (final (m w))))
  | Raised e => Run (calls (m w)) (final (m w)) (Raised e)
  | Suspended => Run (calls (m w)) (final (m w)) Suspended
  end.
Proof. reflexivity. Qed.

Section Equations.

Variable E : env.

Lemma config_update_run d w :
  config_update E d w =
  match config_update_raises E with
  | Some e => Run [(ConfigUpdate d, w)] w (Raised e)
  | None => Run [(ConfigUpdate d, w)] (with_config (d ∪ config w) w) (Returned tt)
  end.
Proof. unfold config_update. rewrite bind_run. by destruct (config_update_raises E). Qed.

Lemma construct_run c w :
  construct E c w =
  match construct_raises E c with
  | Some e => Run [(Construct c, w)] w (Raised e)
  | None =>
      Run [(Construct c, w)]
          (with_heap (<[fresh (dom (heap w)) := Object c (init_attrs E c)]> (heap w)) w)
          (Returned (fresh (dom (heap w))))
  end.
Proof. unfold construct. rewrite bind_run. by destruct (construct_raises E c). Qed.

Lemma setattr_run a name v w :
  setattr E a name v w =
  match setattr_raises E with
  | Some e => Run [(SetAttr a name v, w)] w (Raised e)
  | None =>
      Run [(SetAttr a name v, w)]
          (with_heap (alter (set_attr name v) a (heap w)) w) (Returned tt)
  end.
Proof. unfold setattr. rewrite bind_run. by destruct (setattr_raises E). Qed.

Lemma tree_mount_run a c w :
  tree_mount E a "/" c w =
  match mount_raises E with
  | Some e =>
      Run [(Mount a "/" c, w)]
          (with_heap (alter (add_favicon (favicon_handler E)) a (heap w)) w)
          (Raised e)
  | None =>
      Run [(Mount a "/" c, w)]
          (with_tree (<["" := Application a ""]> (tree w))
             (with_heap (alter (add_favicon (favicon_handler E)) a (heap w)) w))
          (Returned tt)
  end.
Proof. unfold tree_mount. rewrite !bind_run. by destruct (mount_raises E). Qed.

Lemma engine_start_run w :
  engine_start E w =
  match start_raises E with
  | Some e => Run [(EngineStart, w)] w (Raised e)
  | None => Run [(EngineStart, w)] (with_engine Started w) (Returned tt)
  end.
Proof. unfold engine_start. rewrite bind_run. by destruct (start_raises E). Qed.

Lemma engine_block_run w :
  engine_block E w =
  Run [(EngineBlock, w)]
    (with_engine
       match block_does E with BlockReturns => Exiting | _ => engine w end w)
    match block_does E with
    | BlockReturns => Returned tt
    | BlockRaises e => Raised e
    | BlockSuspends => Suspended
    end.
Proof.
  unfold engine_block. rewrite bind_run.
  by destruct w, (block_does E).
Qed.

Lemma lift_run {A} (x : exn + A) w :
  lift x w = match x with
             | inl e => Run [] w (Raised e)
             | inr a => Run [] w (Returned a)
             end.
Proof. by destruct x. Qed.

End Equations.

(** One statement of [main]: expose the outermost [bind], rewrite the call
    with its equation and split on how the collaborator answers. *)
Ltac run_step :=
  rewrite bind_run;
  rewrite ?config_update_run, ?construct_run, ?setattr_run, ?tree_mount_run,
    ?engine_start_run, ?lift_run;
  match goal with
  | |- context [match ?o with Some _ => _ | None => _ end] =>
      let H := fresh "Hstep" in destruct o eqn:H
  | |- context [match ?x with inl _ => _ | inr _ => _ end] =>
      let H := fresh "Hstep" in destruct x eqn:H
  end;
  simpl_run.

(** All of [main]: one goal for every place the run can end. *)
Ltac run_main :=
  unfold main;
  repeat first [ run_step | rewrite engine_block_run; simpl_run ].

(** ** Facts about the two allocations *)

Section Wiring.

Variables (h : gmap loc object) (R P : object).

Lemma root_is_fresh : fresh (dom h) ∉ dom h.
Proof. apply is_fresh. Qed.

Lemma portfolio_is_fresh a : fresh (dom (<[a := R]> h)) ∉ dom h.
Proof.
  intros Hin. apply (is_fresh (dom (<[a := R]> h))).
  apply (dom_insert_subseteq h a R). exact Hin.
Qed.

Lemma portfolio_not_root a : fresh (dom (<[a := R]> h)) ≠ a.
Proof.
  intros Heq. apply (is_fresh (dom (<[a := R]> h))).
  rewrite Heq at 1. apply elem_of_dom. by rewrite lookup_insert_eq.
Qed.

Lemma wired_root a p :
  p ≠ a ->
  alter (set_attr "portfolio" p) a (<[p := P]> (<[a := R]> h)) !! a =
  Some (set_attr "portfolio" p R).
Proof.
  intros Hne. rewrite lookup_alter_eq.
  rewrite lookup_insert_ne by exact Hne.
  by rewrite lookup_insert_eq.
Qed.

Lemma wired_portfolio a p :
  p ≠ a ->
  alter (set_attr "portfolio" p) a (<[p := P]> (<[a := R]> h)) !! p = Some P.
Proof.
  intros Hne. rewrite lookup_alter_ne by (symmetry; exact Hne).
  by rewrite lookup_insert_eq.
Qed.

Lemma wired_attached a p w :
  p ≠ a -> obj_class R = Root -> obj_class P = Portfolio ->
  heap w = alter (set_attr "portfolio" p) a (<[p := P]> (<[a := R]> h)) ->
  attached w a.
Proof.
  intros Hne HR HP Hw. exists (set_attr "portfolio" p R), p.
  rewrite Hw, wired_root, wired_portfolio by exact Hne.
  repeat split; [done | apply lookup_insert_eq | by rewrite <- HP].
Qed.

Lemma add_favicon_class f o : obj_class (add_favicon f o) = obj_class o.
Proof. unfold add_favicon. by destruct (obj_attrs o !! "favicon_ico"). Qed.

Lemma add_favicon_attr f o name :
  name ≠ "favicon_ico" ->
  obj_attrs (add_favicon f o) !! name = obj_attrs o !! name.
Proof.
  intros Hne. unfold add_favicon.
  destruct (obj_attrs o !! "favicon_ico"); [reflexivity |].
  cbn. by apply lookup_insert_ne.
Qed.

Lemma mounted_root a p f :
  p ≠ a ->
  alter (add_favicon f) a
    (alter (set_attr "portfolio" p) a (<[p := P]> (<[a := R]> h))) !! a =
  Some (add_favicon f (set_attr "portfolio" p R)).
Proof. intros Hne. by rewrite lookup_alter_eq, wired_root. Qed.

Lemma mounted_portfolio a p f :
  p ≠ a ->
  alter (add_favicon f) a
    (alter (set_attr "portfolio" p) a (<[p := P]> (<[a := R]> h))) !! p =
  Some P.
Proof.
  intros Hne. rewrite lookup_alter_ne by (symmetry; exact Hne).
  by apply wired_portfolio.
Qed.

Lemma mounted_attached a p f w :
  p ≠ a -> obj_class R = Root -> obj_class P = Portfolio ->
  heap w = alter (add_favicon f) a
             (alter (set_attr "portfolio" p) a (<[p := P]> (<[a := R]> h))) ->
  attached w a.
Proof.
  intros Hne HR HP Hw. exists (add_favicon f (set_attr "portfolio" p R)), p.
  rewrite Hw, mounted_root, mounted_portfolio by exact Hne.
  rewrite add_favicon_class, add_favicon_attr by discriminate.
  repeat split; [done | apply lookup_insert_eq | by rewrite <- HP].
Qed.

End Wiring.

(** Look an object up in the heap a run has built. *)
Ltac heap_lookup :=
  rewrite ?mounted_root, ?mounted_portfolio, ?wired_root, ?wired_portfolio
    by apply portfolio_not_root.

(** What the favicon leaves alone: the class and every other attribute. *)
Ltac past_favicon :=
  cbn [fmap option_fmap option_map];
  rewrite ?add_favicon_class, ?add_favicon_attr by discriminate.

Lemma lacks_key_subscript (settings : value) (k : string) :
  lacks_key settings k ->
  subscript settings "server" = inl (KeyError k) \/
  exists server, subscript settings "server" = inr server /\
    subscript server "app_config" = inl (KeyError k).
Proof.
  intros [[-> (d & -> & Hd)] | [-> (d & d' & -> & Hd & Hd')]]; cbn.
  - left. by rewrite Hd.
  - right. exists (VDict d'). rewrite Hd. cbn. by rewrite Hd'.
Qed.

Lemma calls_through_bound (s : step) (cs : list call) :
  step_of_call <$> cs = calls_through s ->
  forall c, c ∈ cs -> order (step_of_call c) <= order s.
Proof.
  intros Heq c Hc.
  assert (Hin : step_of_call c ∈ calls_through s)
    by (rewrite <- Heq; by apply list_elem_of_fmap_2).
  apply list_elem_of_In, filter_In in Hin as [_ Hle].
  by apply Nat.leb_le.
Qed.

(** ** Concrete runs *)

Example run_ok :
  invoked (main E_ok w_empty) =
    [ConfigUpdate host_config; Construct Root; Construct Portfolio;
     SetAttr 1%positive "portfolio" 2%positive;
     Mount 1%positive "/" (VDict ∅); EngineStart; EngineBlock] /\
  result (main E_ok w_empty) = Suspended /\
  engine (final (main E_ok w_empty)) = Started.
Proof. repeat split; vm_compute; reflexivity. Qed.

Example run_settings_string :
  invoked (main E_settings_string w_empty) =
    [ConfigUpdate host_config; Construct Root; Construct Portfolio;
     SetAttr 1%positive "portfolio" 2%positive] /\
  result (main E_settings_string w_empty) =
    Raised (TypeError "string indices must be integers, not 'str'").
Proof. split; vm_compute; reflexivity. Qed.

Example run_root_fails :
  invoked (main E_root_fails w_empty) =
    [ConfigUpdate host_config; Construct Root] /\
  result (main E_root_fails w_empty) =
    Raised (Error "RuntimeError" "no templates") /\
  heap (final (main E_root_fails w_empty)) = ∅.
Proof. repeat split; vm_compute; reflexivity. Qed.

(** ** The claims *)

(** C1: when [SETTINGS] is a mapping without the ["server"] entry, or its
    ["server"] entry is a mapping without ["app_config"], [main] ends in an
    exception, and neither [cherrypy.engine.start()] nor the mount has been
    called; when the steps before the lookup go through, the exception is
    the [KeyError] of the missing key. *)
Theorem missing_key_fails_before_start (E : env) (w : world) (k : string) :
  lacks_key (SETTINGS E) k ->
  (exists e, result (main E w) = Raised e) /\
  (EngineStart ∉ invoked (main E w)) /\
  (forall a s c, Mount a s c ∉ invoked (main E w)) /\
  (ok_before E StepSettings -> result (main E w) = Raised (KeyError k)).
Proof.
  intros Hk. apply lacks_key_subscript in Hk.
  run_main; simpl_calls;
    try (destruct Hk as [Hk | (? & Hk & Hk')]; congruence);
    (split; [eauto |]); (split; [not_in_calls |]);
    (split; [intros ? ? ?; not_in_calls |]);
    intros Hok; use_ok Hok; try congruence.
  all: destruct Hk as [Hk | (? & Hk & Hk')]; congruence.
Qed.

Lemma missing_key_fails_before_start_witness :
  lacks_key (SETTINGS E_no_app_config) "app_config" /\
  result (main E_no_app_config w_empty) = Raised (KeyError "app_config") /\
  (EngineStart ∉ invoked (main E_no_app_config w_empty)).
Proof.
  assert (Hk : lacks_key (SETTINGS E_no_app_config) "app_config").
  { right. split; [reflexivity |].
    exists {["server" := VDict {["port" := VInt 8080]}]}, {["port" := VInt 8080]}.
    repeat split; vm_compute; reflexivity. }
  destruct (missing_key_fails_before_start E_no_app_config w_empty _ Hk)
    as (_ & Hstart & _ & Hres).
  split; [exact Hk |]. split; [| exact Hstart].
  apply Hres. ok_before_by_computation.
Defined.

(** C2: in a run in which [cherrypy.engine.start()] is called and raises
    [e], [main] ends by raising [e], [cherrypy.engine.block()] is not
    called, and the start was called once. *)
Theorem start_failure_is_fatal (E : env) (w : world) (e : exn) :
  EngineStart ∈ invoked (main E w) ->
  start_raises E = Some e ->
  result (main E w) = Raised e /\
  (EngineBlock ∉ invoked (main E w)) /\
  count_calls is_start (main E w) = 1.
Proof.
  intros Hin Hs. revert Hin.
  run_main; simpl_calls; intros Hin; in_calls Hin; try congruence.
  split; [congruence |]. split; [not_in_calls | reflexivity].
Qed.

Lemma start_failure_is_fatal_witness :
  result (main E_port_in_use w_empty) =
    Raised (Error "OSError" "Address already in use") /\
  (EngineBlock ∉ invoked (main E_port_in_use w_empty)) /\
  count_calls is_start (main E_port_in_use w_empty) = 1.
Proof.
  apply (start_failure_is_fatal E_port_in_use w_empty).
  - vm_compute. do 5 apply list_elem_of_further. apply list_elem_of_here.
  - reflexivity.
Defined.

(** C3: a run of [main] that does not raise makes exactly seven calls, in
    this order: the configuration update, [Root()], [Portfolio()], the
    assignment of the portfolio to the root's [portfolio] attribute, the
    mount of the root at ["/"] with [SETTINGS["server"]["app_config"]],
    the engine start and the engine block. *)
Theorem main_success_sequence (E : env) (w : world) :
  succeeds (main E w) ->
  exists app portfolio cfg,
    mount_config (SETTINGS E) = inr cfg /\
    invoked (main E w) =
      [ConfigUpdate host_config; Construct Root; Construct Portfolio;
       SetAttr app "portfolio" portfolio; Mount app "/" cfg;
       EngineStart; EngineBlock] /\
    obj_class <$> heap (final (main E w)) !! app = Some Root /\
    obj_class <$> heap (final (main E w)) !! portfolio = Some Portfolio.
Proof.
  unfold succeeds, mount_config. run_main; try done.
  intros _. eexists _, _, _.
  split; [reflexivity |]. split; [reflexivity |].
  heap_lookup. by past_favicon.
Qed.

Lemma main_success_sequence_witness :
  succeeds (main E_ok w_empty) /\
  exists app portfolio cfg,
    mount_config (SETTINGS E_ok) = inr cfg /\
    invoked (main E_ok w_empty) =
      [ConfigUpdate host_config; Construct Root; Construct Portfolio;
       SetAttr app "portfolio" portfolio; Mount app "/" cfg;
       EngineStart; EngineBlock] /\
    obj_class <$> heap (final (main E_ok w_empty)) !! app = Some Root /\
    obj_class <$> heap (final (main E_ok w_empty)) !! portfolio = Some Portfolio.
Proof.
  assert (H : succeeds (main E_ok w_empty)) by (vm_compute; exact I).
  exact (conj H (main_success_sequence E_ok w_empty H)).
Defined.

(** C4: whenever the mount is called, the state it is called in already has
    the root attached (its [portfolio] attribute holds a [Portfolio]); the
    assignment to [portfolio] is among the calls made before the mount, and
    the engine has not been started before it. *)
Theorem attach_precedes_mount (E : env) (w : world)
    (a : loc) (s : string) (c : value) (wm : world) :
  (Mount a s c, wm) ∈ calls (main E w) ->
  attached wm a /\
  exists pre post p,
    calls (main E w) = pre ++ (Mount a s c, wm) :: post /\
    (SetAttr a "portfolio" p ∈ pre.*1) /\
    (EngineStart ∉ pre.*1).
Proof.
  run_main; simpl_calls; intros Hin; in_calls Hin.
  all: injection Hin as -> -> -> ->.
  all: split;
    [eapply (wired_attached (heap w) (Object Root (init_attrs E Root))
               (Object Portfolio (init_attrs E Portfolio)));
     [apply portfolio_not_root | reflexivity..] |].
  all: eexists [_; _; _; _], _, _; split; [reflexivity |].
  all: cbn [fmap list_fmap fst]; split; [| not_in_calls].
  all: do 3 apply list_elem_of_further; apply list_elem_of_here.
Qed.

Lemma attach_precedes_mount_witness :
  (Mount 1%positive "/" (VDict ∅), w_at_mount) ∈ calls (main E_ok w_empty) /\
  attached w_at_mount 1%positive.
Proof.
  assert (Hin : calls (main E_ok w_empty) !! 4 =
                Some (Mount 1%positive "/" (VDict ∅), w_at_mount))
    by (vm_compute; reflexivity).
  apply list_elem_of_lookup_2 in Hin.
  split; [exact Hin |].
  exact (proj1 (attach_precedes_mount E_ok w_empty _ _ _ _ Hin)).
Defined.

(** C5: every run of [main] begins with the call
    [cherrypy.config.update({'server.socket_host': '0.0.0.0'})]; no other
    mapping is ever passed to the update; and once the update has gone
    through, the configuration holds ['0.0.0.0'] under
    ['server.socket_host'] in the state the run ends in. *)
Theorem socket_host_all_interfaces (E : env) (w : world) :
  (exists rest,
     calls (main E w) =
       (ConfigUpdate {["server.socket_host" := VStr "0.0.0.0"]}, w) :: rest) /\
  (forall d, ConfigUpdate d ∈ invoked (main E w) ->
     d !! "server.socket_host" = Some (VStr "0.0.0.0")) /\
  (config_update_raises E = None ->
   config (final (main E w)) !! "server.socket_host" = Some (VStr "0.0.0.0")).
Proof.
  run_main; simpl_calls.
  all: split; [eauto |].
  all: split; [intros d Hin; in_calls Hin; injection Hin as ->;
               apply lookup_singleton_eq |].
  all: intros Hc; try discriminate Hc.
  all: apply lookup_union_Some_l, lookup_singleton_eq.
Qed.

Lemma socket_host_all_interfaces_witness :
  config_update_raises E_ok = None /\
  config (final (main E_ok w_empty)) !! "server.socket_host" =
    Some (VStr "0.0.0.0").
Proof.
  split; [reflexivity |].
  apply (proj2 (proj2 (socket_host_all_interfaces E_ok w_empty))).
  reflexivity.
Defined.



(** C6 as it was stated fails: every step through the engine start goes
    through, the block returns, and [main] returns. *)
Lemma main_returns_when_block_returns :
  ok_before E_returns StepBlock /\
  result (main E_returns w_empty) = Returned tt /\
  ~ (forall E w, ok_before E StepBlock -> result (main E w) = Suspended).
Proof.
  assert (Hok : ok_before E_returns StepBlock) by ok_before_by_computation.
  assert (Hret : result (main E_returns w_empty) = Returned tt)
    by (vm_compute; reflexivity).
  split; [exact Hok |]. split; [exact Hret |].
  intros Hall. specialize (Hall E_returns w_empty Hok).
  rewrite Hret in Hall. discriminate Hall.
Qed.

(** C7: when the four wiring steps go through (whatever [SETTINGS] holds),
    the run has created two objects that did not exist before, a [Root] and
    a [Portfolio], at different identities, and in the state the run ends in
    the root's [portfolio] attribute holds the identity of that
    [Portfolio]. *)
Theorem portfolio_attached_and_distinct (E : env) (w : world) :
  ok_before E StepSettings ->
  exists app portfolio o,
    [ConfigUpdate host_config; Construct Root; Construct Portfolio;
     SetAttr app "portfolio" portfolio] `prefix_of` invoked (main E w) /\
    heap (final (main E w)) !! app = Some o /\
    obj_class o = Root /\
    obj_attrs o !! "portfolio" = Some portfolio /\
    obj_class <$> heap (final (main E w)) !! portfolio = Some Portfolio /\
    portfolio ≠ app /\
    (app ∉ dom (heap w)) /\
    (portfolio ∉ dom (heap w)).
Proof.
  intros Hok. use_ok Hok.
  run_main; simpl_calls; try congruence.
  all: eexists _, _, _; split; [eexists; reflexivity |].
  all: heap_lookup.
  all: split; [reflexivity |]; split; [by past_favicon |].
  all: split; [past_favicon; apply lookup_insert_eq |]; split; [reflexivity |].
  all: split; [apply portfolio_not_root |].
  all: split; [apply root_is_fresh | apply portfolio_is_fresh].
Qed.

Lemma portfolio_attached_and_distinct_witness :
  ok_before E_ok StepSettings /\
  exists app portfolio o,
    heap (final (main E_ok w_empty)) !! app = Some o /\
    obj_attrs o !! "portfolio" = Some portfolio /\
    portfolio ≠ app.
Proof.
  assert (Hok : ok_before E_ok StepSettings) by ok_before_by_computation.
  split; [exact Hok |].
  destruct (portfolio_attached_and_distinct E_ok w_empty Hok)
    as (app & portfolio & o & _ & Ho & _ & Hp & _ & Hne & _).
  exists app, portfolio, o. auto.
Defined.



(** C8 as it was stated fails: a run in which [Root()] raises makes no
    mount call at all. *)
Lemma mount_not_in_every_run :
  count_calls is_mount (main E_root_fails w_empty) = 0 /\
  ~ (forall E w, count_calls is_mount (main E w) = 1).
Proof.
  assert (H0 : count_calls is_mount (main E_root_fails w_empty) = 0)
    by (vm_compute; reflexivity).
  split; [exact H0 |].
  intros Hall. specialize (Hall E_root_fails w_empty).
  rewrite H0 in Hall. discriminate Hall.
Qed.

(** C9: the mapping passed to [cherrypy.config.update] has the single key
    ['server.socket_host'], the update is called once, and every entry of
    the configuration under another key is, when the run ends, what it was
    when the run began. *)
Theorem config_update_frame (E : env) (w : world) (k : string) :
  k ≠ "server.socket_host" ->
  config (final (main E w)) !! k = config w !! k /\
  (forall d, ConfigUpdate d ∈ invoked (main E w) ->
     dom d = ({["server.socket_host"]} : gset string)) /\
  count_calls is_config_update (main E w) = 1.
Proof.
  intros Hk.
  run_main; simpl_calls.
  all: split; [| split; [intros d Hin; in_calls Hin; injection Hin as ->;
                         apply dom_singleton_L | reflexivity]].
  all: try reflexivity.
  all: rewrite lookup_union_r; [reflexivity | by apply lookup_singleton_ne].
Qed.

Lemma config_update_frame_witness :
  config (final (main E_ok w_with_port)) !! "server.socket_port" =
    Some (VInt 8080).
Proof.
  assert (Hk : "server.socket_port" ≠ "server.socket_host") by discriminate.
  rewrite (proj1 (config_update_frame E_ok w_with_port _ Hk)).
  reflexivity.
Defined.

(** C10: when a step of [main] raises [e] and every step before it went
    through, [main] ends by raising that same [e], and the calls of the run
    are the calls of the steps up to that one: no later step is called. *)
Theorem exception_propagates (E : env) (w : world) (s : step) (e : exn) :
  raises E s = Some e ->
  ok_before E s ->
  result (main E w) = Raised e /\
  step_of_call <$> invoked (main E w) = calls_through s /\
  (forall c, c ∈ invoked (main E w) -> order (step_of_call c) <= order s).
Proof.
  intros Hs Hok.
  cut (result (main E w) = Raised e /\
       step_of_call <$> invoked (main E w) = calls_through s);
    [intros [? ?]; eauto using calls_through_bound |].
  destruct s; use_ok Hok; cbn [raises] in Hs; unfold mount_config in *;
    run_main; simpl_calls; try congruence.
  all: try (split; [congruence | reflexivity]).
  all: destruct (block_does E); try discriminate Hs.
  all: split; [congruence | reflexivity].
Qed.

Lemma exception_propagates_witness :
  raises E_port_in_use StepStart = Some (Error "OSError" "Address already in use") /\
  ok_before E_port_in_use StepStart /\
  result (main E_port_in_use w_empty) =
    Raised (Error "OSError" "Address already in use").
Proof.
  assert (Hok : ok_before E_port_in_use StepStart) by ok_before_by_computation.
  split; [reflexivity |]. split; [exact Hok |].
  exact (proj1 (exception_propagates E_port_in_use w_empty StepStart _ eq_refl Hok)).
Defined.

(** ** Further properties of [main] *)

(** X1: an exception that leaves [main] was raised by one of its eight
    steps, and every step before that one went through: [main] raises
    nothing of its own. *)
Theorem exception_has_origin (E : env) (w : world) (e : exn) :
  result (main E w) = Raised e ->
  exists s, raises E s = Some e /\ ok_before E s.
Proof.
  run_main; try destruct (block_does E) eqn:Hblock; intros Hres;
    try discriminate Hres; injection Hres as <-.
  all: match goal with
       | H : config_update_raises _ = Some _ |- _ => exists StepConfigUpdate
       | H : construct_raises _ Root = Some _ |- _ => exists StepRoot
       | H : construct_raises _ Portfolio = Some _ |- _ => exists StepPortfolio
       | H : setattr_raises _ = Some _ |- _ => exists StepAttach
       | H : subscript _ _ = inl _ |- _ => exists StepSettings
       | H : mount_raises _ = Some _ |- _ => exists StepMount
       | H : start_raises _ = Some _ |- _ => exists StepStart
       | H : block_does _ = BlockRaises _ |- _ => exists StepBlock
       end.
  all: split; [cbn [raises]; use_subscripts; try rewrite Hblock; done
              | ok_before_from_run].
Qed.

Lemma exception_has_origin_witness :
  exists s, raises E_no_app_config s = Some (KeyError "app_config") /\
            ok_before E_no_app_config s.
Proof.
  apply (exception_has_origin E_no_app_config w_empty).
  vm_compute. reflexivity.
Defined.

(** X2: [main] returns exactly when every step up to the engine start goes
    through and the block returns, and it hangs exactly when every such step
    goes through and the block suspends the thread; it returns [None]. *)
Theorem main_outcome (E : env) (w : world) :
  (forall x, result (main E w) = Returned x <->
     ok_before E StepBlock /\ block_does E = BlockReturns) /\
  (result (main E w) = Suspended <->
     ok_before E StepBlock /\ block_does E = BlockSuspends).
Proof.
  assert (Hfacts : ok_before E StepBlock ->
            forall s', order s' < order StepBlock -> raises E s' = None)
    by (intros Hok; exact Hok).
  pose proof (fun H => Hfacts H StepConfigUpdate ltac:(cbn; lia)) as H0.
  pose proof (fun H => Hfacts H StepRoot ltac:(cbn; lia)) as H1.
  pose proof (fun H => Hfacts H StepPortfolio ltac:(cbn; lia)) as H2.
  pose proof (fun H => Hfacts H StepAttach ltac:(cbn; lia)) as H3.
  pose proof (fun H => Hfacts H StepSettings ltac:(cbn; lia)) as H4.
  pose proof (fun H => Hfacts H StepMount ltac:(cbn; lia)) as H5.
  pose proof (fun H => Hfacts H StepStart ltac:(cbn; lia)) as H6.
  clear Hfacts. cbn [raises] in *. unfold mount_config in *.
  run_main.
  all: try (split; [intros [] |]; split;
            [discriminate
            | intros [Hok _]; specialize (H0 Hok); specialize (H1 Hok);
              specialize (H2 Hok); specialize (H3 Hok); specialize (H4 Hok);
              specialize (H5 Hok); specialize (H6 Hok); congruence
            | discriminate
            | intros [Hok _]; specialize (H0 Hok); specialize (H1 Hok);
              specialize (H2 Hok); specialize (H3 Hok); specialize (H4 Hok);
              specialize (H5 Hok); specialize (H6 Hok); congruence]).
  clear H0 H1 H2 H3 H4 H5 H6.
  assert (Hok : ok_before E StepBlock) by ok_before_from_run.
  destruct (block_does E); split; try intros []; split;
    first [discriminate | by intros [_ ?] | by intros _].
Qed.

Lemma main_outcome_witness :
  result (main E_returns w_empty) = Returned tt /\
  result (main E_ok w_empty) = Suspended.
Proof.
  split.
  - apply (proj1 (main_outcome E_returns w_empty) tt).
    split; [ok_before_by_computation | reflexivity].
  - apply (proj2 (main_outcome E_ok w_empty)).
    split; [ok_before_by_computation | reflexivity].
Defined.

Section Allocation.

Variable h : gmap loc object.




Lemma alloc_size o : size (<[fresh (dom h) := o]> h) = S (size h).
Proof. apply map_size_insert_None, not_elem_of_dom, is_fresh. Qed.

Lemma alter_size (f : object -> object) l : size (alter f l h) = size h.
Proof. by rewrite <- !(size_dom (D := gset loc)), dom_alter_L. Qed.

End Allocation.





(** X5: in the state in which [cherrypy.engine.start()] is called, the
    configuration holds ['0.0.0.0'] under ['server.socket_host'], the tree
    holds under the script name [""] the application of a root that is
    attached and was mounted at ["/"] with the value of
    [SETTINGS["server"]["app_config"]], and the engine is as it was when
    [main] was called. *)
Theorem ready_when_started (E : env) (w ws : world) :
  (EngineStart, ws) ∈ calls (main E w) ->
  config ws !! "server.socket_host" = Some (VStr "0.0.0.0") /\
  (exists app cfg,
     tree ws !! "" = Some (Application app "") /\
     (Mount app "/" cfg ∈ invoked (main E w)) /\
     mount_config (SETTINGS E) = inr cfg /\
     attached ws app) /\
  engine ws = engine w.
Proof.
  unfold mount_config.
  run_main; simpl_calls; intros Hin; in_calls Hin.
  all: injection Hin as ->.
  all: split; [apply lookup_union_Some_l, lookup_singleton_eq |].
  all: split; [| reflexivity].
  all: eexists _, _; split; [apply lookup_insert_eq |].
  all: split; [do 4 apply list_elem_of_further; apply list_elem_of_here |].
  all: split; [reflexivity |].
  all: eapply (mounted_attached (heap w) (Object Root (init_attrs E Root))
                 (Object Portfolio (init_attrs E Portfolio)));
    [apply portfolio_not_root | reflexivity..].
Qed.

Lemma ready_when_started_witness :
  (EngineStart, state_at (main E_ok w_busy) 5) ∈ calls (main E_ok w_busy) /\
  config (state_at (main E_ok w_busy) 5) !! "server.socket_host" =
    Some (VStr "0.0.0.0") /\
  engine (state_at (main E_ok w_busy) 5) = Stopped.
Proof.
  assert (Hin : calls (main E_ok w_busy) !! 5 =
                Some (EngineStart, state_at (main E_ok w_busy) 5))
    by (vm_compute; reflexivity).
  apply list_elem_of_lookup_2 in Hin.
  split; [exact Hin |].
  destruct (ready_when_started E_ok w_busy _ Hin) as (Hc & _ & He).
  split; [exact Hc | exact He].
Defined.

(** X6: every call before the engine start is made with the tree as it was
    when [main] was called, and every call before the block with the engine
    as it was: nothing is mounted or served while the handlers are built. *)
Theorem nothing_served_while_wiring (E : env) (w : world) (c : call) (wc : world) :
  (c, wc) ∈ calls (main E w) ->
  (c ≠ EngineBlock -> engine wc = engine w) /\
  (c ≠ EngineStart -> c ≠ EngineBlock -> tree wc = tree w).
Proof.
  run_main; simpl_calls; intros Hin; in_calls Hin.
  all: injection Hin as -> ->; split; [intros ? | intros ? ?]; done.
Qed.

Lemma nothing_served_while_wiring_witness :
  engine w_at_mount = engine w_empty /\ tree w_at_mount = tree w_empty.
Proof.
  assert (Hin : calls (main E_ok w_empty) !! 4 =
                Some (Mount 1%positive "/" (VDict ∅), w_at_mount))
    by (vm_compute; reflexivity).
  apply list_elem_of_lookup_2 in Hin.
  destruct (nothing_served_while_wiring E_ok w_empty _ _ Hin) as [He Ht].
  split; [by apply He | by apply Ht].
Defined.

Lemma bind_ext {A B} (m : M A) (k1 k2 : A -> M B) (w : world) :
  (forall a w', k1 a w' = k2 a w') -> bind m k1 w = bind m k2 w.
Proof.
  intros Hk. rewrite !bind_run.
  destruct (result (m w)); [by rewrite Hk | done..].
Qed.

(** X7: of [SETTINGS], [main] uses the value of
    [SETTINGS["server"]["app_config"]] and nothing else: with another
    settings value for which that expression gives the same value, or the
    same exception, the run is the same, call for call and state for
    state. *)
Theorem settings_read_through_mount_config (E : env) (w : world) (s : value) :
  mount_config s = mount_config (SETTINGS E) ->
  main (with_settings s E) w = main E w.
Proof.
  unfold mount_config. intros Hs.
  unfold main.
  change (config_update (with_settings s E)) with (config_update E).
  change (construct (with_settings s E)) with (construct E).
  change (setattr (with_settings s E)) with (setattr E).
  change (tree_mount (with_settings s E)) with (tree_mount E).
  change (engine_start (with_settings s E)) with (engine_start E).
  change (engine_block (with_settings s E)) with (engine_block E).
  change (SETTINGS (with_settings s E)) with s.
  apply bind_ext; intros _ w1.
  apply bind_ext; intros app w2.
  apply bind_ext; intros portfolio w3.
  apply bind_ext; intros _ w4.
  rewrite !(bind_run (lift _)), !lift_run.
  destruct (subscript s "server") as [e1 | v1],
    (subscript (SETTINGS E) "server") as [e2 | v2];
    cbn [calls final result];
    rewrite ?(bind_run (lift _)), ?lift_run.
  - by injection Hs as ->.
  - by rewrite <- Hs.
  - by rewrite Hs.
  - by rewrite Hs.
Qed.

Lemma settings_read_through_mount_config_witness :
  main (with_settings settings_rich E_ok) w_busy = main E_ok w_busy.
Proof.
  apply (settings_read_through_mount_config E_ok w_busy settings_rich).
  vm_compute. reflexivity.
Defined.

(** X8: when [SETTINGS], or its ["server"] entry, is not a mapping and the
    four wiring steps go through, [main] ends in a [TypeError] after the
    root and the portfolio have been built and attached, and neither the
    mount nor the engine start is called. *)
Theorem non_mapping_settings_raise_type_error (E : env) (w : world) :
  not_a_mapping (SETTINGS E) ->
  ok_before E StepSettings ->
  (exists msg, result (main E w) = Raised (TypeError msg)) /\
  (exists app portfolio,
     invoked (main E w) =
       [ConfigUpdate host_config; Construct Root; Construct Portfolio;
        SetAttr app "portfolio" portfolio]) /\
  tree (final (main E w)) = tree w /\
  engine (final (main E w)) = engine w.
Proof.
  intros Hs Hok. use_ok Hok.
  assert (Hsub :
    (exists msg, subscript (SETTINGS E) "server" = inl (TypeError msg)) \/
    (exists v msg, subscript (SETTINGS E) "server" = inr v /\
       subscript v "app_config" = inl (TypeError msg))).
  { destruct Hs as [Hs | (d & v & -> & Hd & Hv)].
    - left. destruct (SETTINGS E); try discriminate Hs; cbn; eauto.
    - right. exists v. cbn. rewrite Hd.
      destruct v; try discriminate Hv; cbn; eauto. }
  run_main; simpl_calls; try congruence.
  all: destruct Hsub as [[msg Hm] | (v' & msg & Hv' & Hm)]; try congruence.
  all: split; [exists msg; congruence |].
  all: split; [eexists _, _; reflexivity | split; reflexivity].
Qed.

Lemma non_mapping_settings_raise_type_error_witness :
  not_a_mapping (SETTINGS E_settings_string) /\
  exists msg, result (main E_settings_string w_empty) = Raised (TypeError msg).
Proof.
  assert (Hs : not_a_mapping (SETTINGS E_settings_string))
    by (left; reflexivity).
  split; [exact Hs |].
  apply (non_mapping_settings_raise_type_error E_settings_string w_empty Hs).
  ok_before_by_computation.
Defined.

(** X9: once the configuration update of a run has gone through, a later
    run of [main], under any collaborators, leaves the configuration as the
    first run left it. *)
Theorem config_settled_after_first_run (E E' : env) (w : world) :
  config_update_raises E = None ->
  config (final (main E' (final (main E w)))) = config (final (main E w)).
Proof.
  intros Hc.
  assert (Hfirst : config (final (main E w)) = host_config ∪ config w).
  { revert Hc. run_main; try discriminate; reflexivity. }
  assert (Hany : forall w', config (final (main E' w')) = config w' \/
                            config (final (main E' w')) = host_config ∪ config w').
  { intros w'. run_main; auto. }
  destruct (Hany (final (main E w))) as [-> | ->]; [reflexivity |].
  rewrite Hfirst, (assoc_L (∪)). by rewrite (idemp_L (∪)).
Qed.

Lemma config_settled_after_first_run_witness :
  config (final (main E_port_in_use (final (main E_returns w_busy)))) =
  config (final (main E_returns w_busy)).
Proof.
  apply (config_settled_after_first_run E_returns E_port_in_use w_busy).
  reflexivity.
Defined.
